(** * pull-request-core: the publish pipeline of the pull request extension

    A shallow embedding of [src/pull-request-core.ts].  The file has one
    class, [Client], whose methods talk to the GitHub REST API through an
    [Octokit] instance, and one exported function,
    [issuePullRequestWithToken], which reports the outcome on the active
    window of the host application.

    The remote service and the host are not part of the program: they are
    taken as parameters (a record of methods over an abstract world [W]).
    Every [await] on a remote method is a step of the world; the program is
    written in a small monad that threads the world, collects the calls
    issued and the notifications shown, and carries JavaScript exceptions. *)

From Stdlib Require Import String Ascii List ZArith Bool DecimalString.
Import ListNotations.
Local Open Scope list_scope.
Local Open Scope string_scope.
Set Warnings "-register-all".

(** ** JavaScript values that the program inspects or serialises *)

(** The enumerable part of a thrown object is JSON data.  Numbers are the
    integers (status codes, counters); an object is its properties in
    insertion order, with distinct keys. *)
Inductive Json : Type :=
| JNull
| JBool (b : bool)
| JNum (z : Z)
| JStr (s : string)
| JArr (items : list Json)
| JObj (members : list (string * Json)).

(** An [Error] instance: [message] is an own property that is not
    enumerable, [props] are the own enumerable properties added by whoever
    built the error (octokit's HttpError sets [name], [status], [headers]
    and [request]). *)
Record JsError : Type := mkJsError {
  message : string;
  props : list (string * Json)
}.

(** [new Error(msg)] *)
Definition new_Error (msg : string) : JsError :=
  {| message := msg; props := [] |}.

Fixpoint assoc (k : string) (m : list (string * Json)) : option Json :=
  match m with
  | [] => None
  | (k', v) :: rest => if String.eqb k k' then Some v else assoc k rest
  end.

(** [e.status]: a property read; [None] is [undefined]. *)
Definition get_prop (e : JsError) (k : string) : option Json :=
  assoc k (props e).

(** ToBoolean on the values above. *)
Definition truthy (v : option Json) : bool :=
  match v with
  | None => false
  | Some JNull => false
  | Some (JBool b) => b
  | Some (JNum z) => negb (Z.eqb z 0)
  | Some (JStr s) => negb (String.eqb s "")
  | Some (JArr _) => true
  | Some (JObj _) => true
  end.

(** [v === n] for a number literal [n]. *)
Definition strict_eq_num (v : option Json) (n : Z) : bool :=
  match v with
  | Some (JNum z) => Z.eqb z n
  | _ => false
  end.

(** *** JSON.stringify *)

Definition nl : string := String (ascii_of_nat 10) EmptyString.

Definition dquote : string := String (ascii_of_nat 34) EmptyString.

Definition hex_digit (n : nat) : string :=
  String.substring n 1 "0123456789abcdef".

(** QuoteJSONString, one code unit at a time. *)
Definition escape_char (c : ascii) : string :=
  let n := nat_of_ascii c in
  if Nat.eqb n 34 then "\" ++ dquote
  else if Nat.eqb n 92 then "\\"
  else if Nat.eqb n 8 then "\b"
  else if Nat.eqb n 9 then "\t"
  else if Nat.eqb n 10 then "\n"
  else if Nat.eqb n 12 then "\f"
  else if Nat.eqb n 13 then "\r"
  else if Nat.ltb n 32 then "\u00" ++ hex_digit (n / 16) ++ hex_digit (n mod 16)
  else String c EmptyString.

Fixpoint escape (s : string) : string :=
  match s with
  | EmptyString => EmptyString
  | String c rest => escape_char c ++ escape rest
  end.

Definition quote (s : string) : string := dquote ++ escape s ++ dquote.

(** Number::toString on an integer (decimal digits; magnitudes from 1e21
    on, which JavaScript prints with an exponent, are outside the status
    codes and counters this program meets). *)
Definition number_to_string (z : Z) : string :=
  NilZero.string_of_int (Z.to_int z).

Fixpoint stringify_value (v : Json) : string :=
  match v with
  | JNull => "null"
  | JBool true => "true"
  | JBool false => "false"
  | JNum z => number_to_string z
  | JStr s => quote s
  | JArr items =>
      "[" ++ String.concat "," (map stringify_value items) ++ "]"
  | JObj members =>
      "{" ++ String.concat ","
               (map (fun kv => quote (fst kv) ++ ":" ++ stringify_value (snd kv))
                    members) ++ "}"
  end.

(** [JSON.stringify(e)] on an [Error] instance: only the own enumerable
    properties are written, so the message of a plain [new Error(msg)] is
    not part of the output. *)
Definition JSON_stringify (e : JsError) : string :=
  stringify_value (JObj (props e)).

(** ** The host application ([sourcegraph]) *)

Module NotificationType.
(** The host's enumeration of notification kinds. *)
Inductive t : Type := Error | Warning | Info | Log | Success.
End NotificationType.

(** A window of the host, as far as the program is concerned: something a
    notification can be shown on. *)
Record Window : Type := mkWindow { window_id : nat }.

(** ** Input types ([./types]) *)

(** Modelled from the spec: [types.ts] is not among the sources.  The
    fields are the ones [createPullRequest] destructures; the destination
    owner and repository may be absent, the two flags are passed through
    as they are. *)
Module GitHubPullRequest.
Record t : Type := mk {
  sourceOwner : string;
  sourceRepo : string;
  destinationBranch : string;
  sourceBranch : string;
  subject : string;
  description : string;
  destinationOwner : option string;
  destinationRepo : option string;
  maintainerCanModify : option bool;
  draft : option bool
}.
End GitHubPullRequest.

(** Modelled from the spec: a file entry is a path and its content. *)
Module SourceFile.
Record t : Type := mk { path : string; content : string }.
End SourceFile.

(** Modelled from the spec: author and message of the commit. *)
Module CommitMetaData.
Record t : Type := mk {
  authorName : string;
  authorEmail : string;
  commitMessage : string
}.
End CommitMetaData.

Module ChangesetCommit.
Record t : Type := mk {
  sourceFiles : list SourceFile.t;
  commitMetaData : CommitMetaData.t
}.
End ChangesetCommit.

Module PullRequestWithChangesetCommit.
Record t : Type := mk {
  pullRequest : GitHubPullRequest.t;
  changesetCommit : ChangesetCommit.t
}.
End PullRequestWithChangesetCommit.

(** ** The remote service ([@octokit/rest]) *)

Module GitGetRefParams.
Record t : Type := mk { owner : string; repo : string; ref : string }.
End GitGetRefParams.

Module GitCreateRefParams.
Record t : Type := mk {
  owner : string; repo : string; ref : string; sha : string
}.
End GitCreateRefParams.

Module TreeEntryType.
Inductive t : Type := blob | tree | commit.
End TreeEntryType.

Module TreeEntryMode.
Inductive t : Type := m100644 | m100755 | m040000 | m160000 | m120000.
End TreeEntryMode.

Module GitCreateTreeParamsTree.
Record t : Type := mk {
  path : string;
  content : string;
  type : TreeEntryType.t;
  mode : TreeEntryMode.t
}.
End GitCreateTreeParamsTree.

Module GitCreateTreeParams.
Record t : Type := mk {
  owner : string;
  repo : string;
  tree : list GitCreateTreeParamsTree.t;
  base_tree : option string
}.
End GitCreateTreeParams.

Module GitGetCommitParams.
Record t : Type := mk { owner : string; repo : string; commit_sha : string }.
End GitGetCommitParams.

Module CommitAuthor.
Record t : Type := mk { name : string; email : string; date : string }.
End CommitAuthor.

Module GitCreateCommitParams.
Record t : Type := mk {
  owner : string;
  repo : string;
  message : string;
  tree : string;
  author : CommitAuthor.t;
  parents : list string
}.
End GitCreateCommitParams.

Module GitUpdateRefParams.
Record t : Type := mk {
  owner : string;
  repo : string;
  ref : string;
  sha : string;
  force : option bool
}.
End GitUpdateRefParams.

Module PullsCreateParams.
Record t : Type := mk {
  owner : string;
  repo : string;
  title : string;
  body : string;
  head : string;
  base : string;
  maintainer_can_modify : option bool;
  draft : option bool
}.
End PullsCreateParams.

(** Response bodies, with the fields the program reads. *)
Module GitObject.
Record t : Type := mk { sha : string }.
End GitObject.

Module GitRefResponse.
(** The body of getRef, createRef and updateRef. *)
Record t : Type := mk { ref : string; object : GitObject.t }.
End GitRefResponse.

Module ShaResponse.
(** The body of createTree, getCommit and createCommit. *)
Record t : Type := mk { sha : string }.
End ShaResponse.

Module PullsCreateResponse.
Record t : Type := mk { html_url : string; number : Z }.
End PullsCreateResponse.

(** A promise settled by the remote: rejected with an error or resolved
    with [data], together with the world after the request. *)
Definition Settled (W D : Type) : Type := (W * (JsError + D))%type.

(** The methods of an [Octokit] instance that the program calls. *)
Record Octokit (W : Type) : Type := mkOctokit {
  git_getRef : GitGetRefParams.t -> W -> Settled W GitRefResponse.t;
  git_createRef : GitCreateRefParams.t -> W -> Settled W GitRefResponse.t;
  git_createTree : GitCreateTreeParams.t -> W -> Settled W ShaResponse.t;
  git_getCommit : GitGetCommitParams.t -> W -> Settled W ShaResponse.t;
  git_createCommit : GitCreateCommitParams.t -> W -> Settled W ShaResponse.t;
  git_updateRef : GitUpdateRefParams.t -> W -> Settled W GitRefResponse.t;
  pulls_create : PullsCreateParams.t -> W -> Settled W PullsCreateResponse.t
}.
Arguments git_getRef {W}.
Arguments git_createRef {W}.
Arguments git_createTree {W}.
Arguments git_getCommit {W}.
Arguments git_createCommit {W}.
Arguments git_updateRef {W}.
Arguments pulls_create {W}.

(** The options [new Octokit({...})] is given. *)
Record OctokitOptions : Type := mkOptions {
  auth : string;
  headers_accept : string
}.

(** What the program reads from its surroundings without a request: the
    host's active window and the clock.  Both are functions of the world:
    they change across a request, when the event loop runs, and not between
    two reads that no request separates. *)
Record Host (W : Type) : Type := mkHost {
  app_activeWindow : W -> option Window;
  Date_toISOString : W -> string
}.
Arguments app_activeWindow {W}.
Arguments Date_toISOString {W}.

(** ** What a run leaves behind *)

Inductive Request : Type :=
| GitGetRef (p : GitGetRefParams.t)
| GitCreateRef (p : GitCreateRefParams.t)
| GitCreateTree (p : GitCreateTreeParams.t)
| GitGetCommit (p : GitGetCommitParams.t)
| GitCreateCommit (p : GitCreateCommitParams.t)
| GitUpdateRef (p : GitUpdateRefParams.t)
| PullsCreate (p : PullsCreateParams.t).

(** The body of a resolved request. *)
Inductive Data : Type :=
| RefData (d : GitRefResponse.t)
| ShaData (d : ShaResponse.t)
| PullData (d : PullsCreateResponse.t).

(** The transcript of a run: each request with how the remote settled it,
    and each notification shown. *)
Inductive Event : Type :=
| Called (r : Request) (settled : JsError + Data)
| Notified (win : Window) (msg : string) (ty : NotificationType.t).

(** ** The monad of asynchronous functions

    An async function, run from a world, ends in a world, has issued some
    requests and shown some notifications (in order), and either threw or
    returned. *)
Record Run (W A : Type) : Type := mkRun {
  world : W;
  events : list Event;
  outcome : JsError + A
}.
Arguments mkRun {W A}.
Arguments world {W A}.
Arguments events {W A}.
Arguments outcome {W A}.

Definition Async (W A : Type) : Type := W -> Run W A.

Section Monad.
Context {W : Type}.

Definition ret {A} (a : A) : Async W A :=
  fun w => mkRun w [] (inr a).

Definition throw {A} (e : JsError) : Async W A :=
  fun w => mkRun w [] (inl e).

Definition bind {A B} (m : Async W A) (k : A -> Async W B) : Async W B :=
  fun w =>
    match m w with
    | mkRun w1 evs1 (inl e) => mkRun w1 evs1 (inl e)
    | mkRun w1 evs1 (inr a) =>
        match k a w1 with
        | mkRun w2 evs2 o => mkRun w2 (evs1 ++ evs2)%list o
        end
    end.

(** [try { body } catch (e) { handler }] *)
Definition try_catch {A} (body : Async W A) (handler : JsError -> Async W A)
  : Async W A :=
  fun w =>
    match body w with
    | mkRun w1 evs1 (inl e) =>
        match handler e w1 with
        | mkRun w2 evs2 o => mkRun w2 (evs1 ++ evs2)%list o
        end
    | mkRun w1 evs1 (inr a) => mkRun w1 evs1 (inr a)
    end.

(** [await method(params)] *)
Definition await {P D} (method : P -> W -> Settled W D) (tag : P -> Request)
    (body : D -> Data) (params : P) : Async W D :=
  fun w =>
    match method params w with
    | (w', inl e) => mkRun w' [Called (tag params) (inl e)] (inl e)
    | (w', inr d) => mkRun w' [Called (tag params) (inr (body d))] (inr d)
    end.

(** A read of the surroundings. *)
Definition read {A} (f : W -> A) : Async W A :=
  fun w => mkRun w [] (inr (f w)).

(** [win.showNotification(msg, ty)] *)
Definition showNotification (win : Window) (msg : string)
    (ty : NotificationType.t) : Async W unit :=
  fun w => mkRun w [Notified win msg ty] (inr tt).
End Monad.

Declare Scope async_scope.
Delimit Scope async_scope with async.
Notation "x <- m ;; k" := (bind m (fun x => k))
  (at level 61, m at next level, right associativity) : async_scope.
Notation "m ;;; k" := (bind m (fun _ => k))
  (at level 61, right associativity) : async_scope.

(** ** The program *)

Definition no_active_window : string := "No active window".

Definition already_exists_message : string :=
  "PR updated with new commit (branch already exists).".

Definition lookup_failed_message : string :=
  "Error looking up or creating branch. Is your GitHub token authorized?".

(** The four bytes are the UTF-8 encoding of the emoji U+1F60E that opens
    the success message. *)
Definition sunglasses : string :=
  String (ascii_of_nat 240) (String (ascii_of_nat 159)
    (String (ascii_of_nat 152) (String (ascii_of_nat 142) EmptyString))).

Definition pr_created_message (html_url : string) : string :=
  sunglasses ++ " PR Created:" ++ nl ++ html_url.

Definition accept_header : string :=
  "application/vnd.github.shadow-cat-preview+json, application/vnd.github.v3+json".

Section Program.
Context {W : Type}.
(** [new Octokit(options)] and the host. *)
Variable Octokit_new : OctokitOptions -> Octokit W.
Variable host : Host W.

Local Open Scope async_scope.

Record Client : Type := mkClient { octokit : Octokit W }.

(** [constructor(gitHubAccessToken)] *)
Definition Client_new (gitHubAccessToken : string) : Client :=
  {| octokit :=
       Octokit_new {| auth := gitHubAccessToken;
                      headers_accept := accept_header |} |}.

(** Lines 57-65 of [createPullRequest] and the argument it builds for
    [pulls.create]: the destination owner is kept, and the branch
    qualified, only when the owner is truthy and is not the source
    owner; a falsy destination repository is replaced by the source
    repository. *)
Definition pullsCreateParams (pr : GitHubPullRequest.t)
  : PullsCreateParams.t :=
  let sourceOwner := GitHubPullRequest.sourceOwner pr in
  let sourceRepo := GitHubPullRequest.sourceRepo pr in
  let '(destinationBranch, destinationOwner) :=
    match GitHubPullRequest.destinationOwner pr with
    | Some o =>
        if negb (String.eqb o "") && negb (String.eqb o sourceOwner)
        then (sourceOwner ++ ":" ++ GitHubPullRequest.destinationBranch pr, o)
        else (GitHubPullRequest.destinationBranch pr, sourceOwner)
    | None => (GitHubPullRequest.destinationBranch pr, sourceOwner)
    end in
  let destinationRepo :=
    match GitHubPullRequest.destinationRepo pr with
    | Some r => if String.eqb r "" then sourceRepo else r
    | None => sourceRepo
    end in
  {| PullsCreateParams.owner := destinationOwner;
     PullsCreateParams.repo := destinationRepo;
     PullsCreateParams.title := GitHubPullRequest.subject pr;
     PullsCreateParams.body := GitHubPullRequest.description pr;
     PullsCreateParams.head := GitHubPullRequest.sourceBranch pr;
     PullsCreateParams.base := destinationBranch;
     PullsCreateParams.maintainer_can_modify :=
       GitHubPullRequest.maintainerCanModify pr;
     PullsCreateParams.draft := GitHubPullRequest.draft pr |}.

Definition createPullRequest (this : Client) (pr : GitHubPullRequest.t)
  : Async W (option PullsCreateResponse.t) :=
  try_catch
    (pullResponse <-
       await (pulls_create (octokit this)) PullsCreate PullData
         (pullsCreateParams pr) ;;
     ret (Some pullResponse))
    (fun e =>
       if truthy (get_prop e "status")
          && strict_eq_num (get_prop e "status") 422
       then
         activeWindow <- read (app_activeWindow host) ;;
         match activeWindow with
         | None => throw (new_Error no_active_window)
         | Some win =>
             showNotification win already_exists_message
               NotificationType.Warning ;;;
             ret None
         end
       else throw (new_Error ("Error: " ++ JSON_stringify e))).

Definition pushCommit (this : Client) (owner repo commitBranch
    commitBranchSha treeSha authorName authorEmail commitMessage : string)
  : Async W GitRefResponse.t :=
  parentCommit <-
    await (git_getCommit (octokit this)) GitGetCommit ShaData
      {| GitGetCommitParams.owner := owner;
         GitGetCommitParams.repo := repo;
         GitGetCommitParams.commit_sha := commitBranchSha |} ;;
  now <- read (Date_toISOString host) ;;
  createdCommit <-
    await (git_createCommit (octokit this)) GitCreateCommit ShaData
      {| GitCreateCommitParams.owner := owner;
         GitCreateCommitParams.repo := repo;
         GitCreateCommitParams.message := commitMessage;
         GitCreateCommitParams.tree := treeSha;
         GitCreateCommitParams.author :=
           {| CommitAuthor.name := authorName;
              CommitAuthor.email := authorEmail;
              CommitAuthor.date := now |};
         GitCreateCommitParams.parents := [ShaResponse.sha parentCommit] |} ;;
  ref <-
    await (git_updateRef (octokit this)) GitUpdateRef RefData
      {| GitUpdateRefParams.owner := owner;
         GitUpdateRefParams.repo := repo;
         GitUpdateRefParams.ref := "heads/" ++ commitBranch;
         GitUpdateRefParams.sha := ShaResponse.sha createdCommit;
         GitUpdateRefParams.force := Some false |} ;;
  ret ref.

Definition createTree (this : Client) (owner repo commitBranchSha : string)
    (sourceFiles : list SourceFile.t) : Async W ShaResponse.t :=
  let tree :=
    map (fun f =>
           {| GitCreateTreeParamsTree.path := SourceFile.path f;
              GitCreateTreeParamsTree.content := SourceFile.content f;
              GitCreateTreeParamsTree.type := TreeEntryType.blob;
              GitCreateTreeParamsTree.mode := TreeEntryMode.m100644 |})
        sourceFiles in
  data <-
    await (git_createTree (octokit this)) GitCreateTree ShaData
      {| GitCreateTreeParams.owner := owner;
         GitCreateTreeParams.repo := repo;
         GitCreateTreeParams.tree := tree;
         GitCreateTreeParams.base_tree := Some commitBranchSha |} ;;
  ret {| ShaResponse.sha := ShaResponse.sha data |}.

Definition createCommitBranch (this : Client)
    (owner repo baseBranch commitBranch : string) : Async W ShaResponse.t :=
  baseBranchRef <-
    await (git_getRef (octokit this)) GitGetRef RefData
      {| GitGetRefParams.owner := owner;
         GitGetRefParams.repo := repo;
         GitGetRefParams.ref := "heads/" ++ baseBranch |} ;;
  commitBranchRef <-
    await (git_createRef (octokit this)) GitCreateRef RefData
      {| GitCreateRefParams.owner := owner;
         GitCreateRefParams.repo := repo;
         GitCreateRefParams.ref := "refs/heads/" ++ commitBranch;
         GitCreateRefParams.sha :=
           GitObject.sha (GitRefResponse.object baseBranchRef) |} ;;
  ret {| ShaResponse.sha :=
           GitObject.sha (GitRefResponse.object commitBranchRef) |}.

Definition getCommitBranchSha (this : Client)
    (owner repo baseBranch commitBranch : string) : Async W ShaResponse.t :=
  try_catch
    (data <-
       await (git_getRef (octokit this)) GitGetRef RefData
         {| GitGetRefParams.owner := owner;
            GitGetRefParams.repo := repo;
            GitGetRefParams.ref := "heads/" ++ commitBranch |} ;;
     ret {| ShaResponse.sha := GitObject.sha (GitRefResponse.object data) |})
    (fun e =>
       let status := get_prop e "status" in
       if strict_eq_num status 404
       then createCommitBranch this owner repo baseBranch commitBranch
       else throw (new_Error lookup_failed_message)).

Definition issuePullRequest (this : Client)
    (arg : PullRequestWithChangesetCommit.t)
  : Async W (option PullsCreateResponse.t) :=
  let pr := PullRequestWithChangesetCommit.pullRequest arg in
  let cs := PullRequestWithChangesetCommit.changesetCommit arg in
  let meta := ChangesetCommit.commitMetaData cs in
  branch <-
    getCommitBranchSha this
      (GitHubPullRequest.sourceOwner pr)
      (GitHubPullRequest.sourceRepo pr)
      (GitHubPullRequest.destinationBranch pr)
      (GitHubPullRequest.sourceBranch pr) ;;
  let commitBranchSha := ShaResponse.sha branch in
  tree <-
    createTree this
      (GitHubPullRequest.sourceOwner pr)
      (GitHubPullRequest.sourceRepo pr)
      commitBranchSha
      (ChangesetCommit.sourceFiles cs) ;;
  let treeSha := ShaResponse.sha tree in
  pushCommit this
    (GitHubPullRequest.sourceOwner pr)
    (GitHubPullRequest.sourceRepo pr)
    (GitHubPullRequest.sourceBranch pr)
    commitBranchSha
    treeSha
    (CommitMetaData.authorName meta)
    (CommitMetaData.authorEmail meta)
    (CommitMetaData.commitMessage meta) ;;;
  createPullRequest this pr.

Definition issuePullRequestWithToken
    (arg : PullRequestWithChangesetCommit.t) (gitHubAccessToken : string)
  : Async W unit :=
  let client := Client_new gitHubAccessToken in
  try_catch
    (result <- issuePullRequest client arg ;;
     activeWindow <- read (app_activeWindow host) ;;
     match activeWindow with
     | None => throw (new_Error no_active_window)
     | Some win =>
         match result with
         | Some r =>
             if negb (String.eqb (PullsCreateResponse.html_url r) "")
             then showNotification win
                    (pr_created_message (PullsCreateResponse.html_url r))
                    NotificationType.Success
             else ret tt
         | None => ret tt
         end
     end)
    (fun e =>
       throw (new_Error ("Unhandled error in GH response" ++ nl
                         ++ JSON_stringify e))).
End Program.

(** ** Reading a transcript *)

Definition is_notification (ty : NotificationType.t) (ev : Event) : bool :=
  match ev, ty with
  | Notified _ _ NotificationType.Error, NotificationType.Error => true
  | Notified _ _ NotificationType.Warning, NotificationType.Warning => true
  | Notified _ _ NotificationType.Info, NotificationType.Info => true
  | Notified _ _ NotificationType.Log, NotificationType.Log => true
  | Notified _ _ NotificationType.Success, NotificationType.Success => true
  | _, _ => false
  end.

Definition is_notified (ev : Event) : bool :=
  match ev with
  | Notified _ _ _ => true
  | Called _ _ => false
  end.

Definition is_updateRef (ev : Event) : bool :=
  match ev with
  | Called (GitUpdateRef _) _ => true
  | _ => false
  end.

Definition is_createRef (ev : Event) : bool :=
  match ev with
  | Called (GitCreateRef _) _ => true
  | _ => false
  end.

(** The notifications of a transcript, in order. *)
Definition notifications (evs : list Event) : list Event :=
  filter is_notified evs.

Definition threw {W A} (r : Run W A) : bool :=
  match outcome r with
  | inl _ => true
  | inr _ => false
  end.

(** How many of the three user-visible outcomes a publish call produced:
    success notifications, already-exists notifications (the program shows
    them as warnings), and a propagated error. *)
Definition outcomes {W A} (r : Run W A) : nat :=
  length (filter (is_notification NotificationType.Success) (events r))
  + length (filter (is_notification NotificationType.Warning) (events r))
  + (if threw r then 1 else 0).

(** Every created pull request came back with a non-empty [html_url]. *)
Definition url_disclosed (evs : list Event) : bool :=
  forallb (fun ev =>
             match ev with
             | Called (PullsCreate _) (inr (PullData d)) =>
                 negb (String.eqb (PullsCreateResponse.html_url d) "")
             | _ => true
             end) evs.

(** ** Two remotes to run the program against *)

(** A small in-memory hosting service: branches, commits with their
    parents, open pull requests.  A pending push by somebody else lands
    while a commit is being read; a locked service refuses to open pull
    requests. *)
Module Hub.
Record state : Type := mkState {
  refs : list (string * string);
  commits : list (string * list string);
  pulls : list (string * string);
  fresh : nat;
  window : option Window;
  pending_push : option (string * string);
  locked : bool
}.

Definition http_error (status : Z) (msg : string) : JsError :=
  {| message := msg;
     props := [("name", JStr "HttpError"); ("status", JNum status)] |}.

Fixpoint lookup {A} (k : string) (m : list (string * A)) : option A :=
  match m with
  | [] => None
  | (k', v) :: rest => if String.eqb k k' then Some v else lookup k rest
  end.

Fixpoint update (k v : string) (m : list (string * string))
  : list (string * string) :=
  match m with
  | [] => [(k, v)]
  | (k', v') :: rest =>
      if String.eqb k k' then (k, v) :: rest else (k', v') :: update k v rest
  end.

Definition numeral (n : nat) : string :=
  NilZero.string_of_uint (Nat.to_uint n).

Definition getRef (p : GitGetRefParams.t) (st : state)
  : Settled state GitRefResponse.t :=
  match lookup (GitGetRefParams.ref p) (refs st) with
  | Some sha =>
      (st, inr {| GitRefResponse.ref := "refs/" ++ GitGetRefParams.ref p;
                  GitRefResponse.object := {| GitObject.sha := sha |} |})
  | None => (st, inl (http_error 404 "Not Found"))
  end.

Definition createRef (p : GitCreateRefParams.t) (st : state)
  : Settled state GitRefResponse.t :=
  let full := GitCreateRefParams.ref p in
  let short := String.substring 5 (String.length full - 5) full in
  match lookup short (refs st) with
  | Some _ => (st, inl (http_error 422 "Reference already exists"))
  | None =>
      (mkState (update short (GitCreateRefParams.sha p) (refs st))
               (commits st) (pulls st) (fresh st) (window st)
               (pending_push st) (locked st),
       inr {| GitRefResponse.ref := full;
              GitRefResponse.object :=
                {| GitObject.sha := GitCreateRefParams.sha p |} |})
  end.

Definition createTree (p : GitCreateTreeParams.t) (st : state)
  : Settled state ShaResponse.t :=
  (mkState (refs st) (commits st) (pulls st) (S (fresh st)) (window st)
           (pending_push st) (locked st),
   inr {| ShaResponse.sha := "tree-" ++ numeral (fresh st) |}).

Definition land (st : state) : list (string * string) :=
  match pending_push st with
  | Some (ref, sha) => update ref sha (refs st)
  | None => refs st
  end.

Definition getCommit (p : GitGetCommitParams.t) (st : state)
  : Settled state ShaResponse.t :=
  let st' := mkState (land st) (commits st) (pulls st) (fresh st)
                     (window st) None (locked st) in
  match lookup (GitGetCommitParams.commit_sha p) (commits st) with
  | Some _ =>
      (st', inr {| ShaResponse.sha := GitGetCommitParams.commit_sha p |})
  | None => (st', inl (http_error 404 "Not Found"))
  end.

Definition createCommit (p : GitCreateCommitParams.t) (st : state)
  : Settled state ShaResponse.t :=
  let sha := "commit-" ++ numeral (fresh st) in
  (mkState (refs st)
           ((sha, GitCreateCommitParams.parents p) :: commits st)
           (pulls st) (S (fresh st)) (window st) (pending_push st) (locked st),
   inr {| ShaResponse.sha := sha |}).

Definition fast_forward (st : state) (tip sha : string) : bool :=
  match lookup sha (commits st) with
  | Some parents => existsb (String.eqb tip) parents
  | None => false
  end.

Definition updateRef (p : GitUpdateRefParams.t) (st : state)
  : Settled state GitRefResponse.t :=
  let ref := GitUpdateRefParams.ref p in
  let sha := GitUpdateRefParams.sha p in
  match lookup ref (refs st) with
  | None => (st, inl (http_error 422 "Reference does not exist"))
  | Some tip =>
      let forced :=
        match GitUpdateRefParams.force p with
        | Some b => b
        | None => false
        end in
      if forced || fast_forward st tip sha
      then (mkState (update ref sha (refs st)) (commits st) (pulls st)
                    (fresh st) (window st) (pending_push st) (locked st),
            inr {| GitRefResponse.ref := "refs/" ++ ref;
                   GitRefResponse.object := {| GitObject.sha := sha |} |})
      else (st, inl (http_error 422 "Update is not a fast forward"))
  end.

Definition same_pull (head base : string) (pr : string * string) : bool :=
  String.eqb head (fst pr) && String.eqb base (snd pr).

Definition create (p : PullsCreateParams.t) (st : state)
  : Settled state PullsCreateResponse.t :=
  let head := PullsCreateParams.head p in
  let base := PullsCreateParams.base p in
  if locked st
  then (st, inl (http_error 403 "Resource not accessible by integration"))
  else if existsb (same_pull head base) (pulls st)
  then (st, inl (http_error 422 "Validation Failed"))
  else
    let number := S (length (pulls st)) in
    (mkState (refs st) (commits st) ((head, base) :: pulls st) (fresh st)
             (window st) (pending_push st) (locked st),
     inr {| PullsCreateResponse.html_url :=
              "https://github.com/" ++ PullsCreateParams.owner p ++ "/"
              ++ PullsCreateParams.repo p ++ "/pull/" ++ numeral number;
            PullsCreateResponse.number := Z.of_nat number |}).

Definition connect (options : OctokitOptions) : Octokit state :=
  {| git_getRef := getRef;
     git_createRef := createRef;
     git_createTree := createTree;
     git_getCommit := getCommit;
     git_createCommit := createCommit;
     git_updateRef := updateRef;
     pulls_create := create |}.

Definition host : Host state :=
  {| app_activeWindow := window;
     Date_toISOString := fun _ => "2019-08-01T12:00:00.000Z" |}.

(** alice/demo with a [main] branch at commit [S]; one window open. *)
Definition start : state :=
  {| refs := [("heads/main", "S")];
     commits := [("S", [])];
     pulls := [];
     fresh := 0;
     window := Some (mkWindow 1);
     pending_push := None;
     locked := false |}.

(** The same with [feature-x] already published and its pull request
    open. *)
Definition published : state :=
  {| refs := [("heads/main", "S"); ("heads/feature-x", "F")];
     commits := [("F", ["S"]); ("S", [])];
     pulls := [("feature-x", "main")];
     fresh := 0;
     window := Some (mkWindow 1);
     pending_push := None;
     locked := false |}.

(** [published], with somebody else about to push [G] on [feature-x]. *)
Definition raced : state :=
  {| refs := [("heads/main", "S"); ("heads/feature-x", "F")];
     commits := [("G", ["F"]); ("F", ["S"]); ("S", [])];
     pulls := [("feature-x", "main")];
     fresh := 0;
     window := Some (mkWindow 1);
     pending_push := Some ("heads/feature-x", "G");
     locked := false |}.

(** [start] with no window open. *)
Definition headless : state :=
  {| refs := [("heads/main", "S")];
     commits := [("S", [])];
     pulls := [];
     fresh := 0;
     window := None;
     pending_push := None;
     locked := false |}.

(** [start] with a token that may push but not open pull requests. *)
Definition restricted : state :=
  {| refs := [("heads/main", "S")];
     commits := [("S", [])];
     pulls := [];
     fresh := 0;
     window := Some (mkWindow 1);
     pending_push := None;
     locked := true |}.
End Hub.

(** A remote that resolves everything and whose pull-request body has an
    empty [html_url]. *)
Module Terse.
Definition a_ref : GitRefResponse.t :=
  {| GitRefResponse.ref := "refs/heads/feature-x";
     GitRefResponse.object := {| GitObject.sha := "S" |} |}.

Definition connect (options : OctokitOptions) : Octokit unit :=
  {| git_getRef := fun _ w => (w, inr a_ref);
     git_createRef := fun _ w => (w, inr a_ref);
     git_createTree := fun _ w => (w, inr {| ShaResponse.sha := "T" |});
     git_getCommit := fun _ w => (w, inr {| ShaResponse.sha := "S" |});
     git_createCommit := fun _ w => (w, inr {| ShaResponse.sha := "C" |});
     git_updateRef := fun _ w => (w, inr a_ref);
     pulls_create :=
       fun _ w => (w, inr {| PullsCreateResponse.html_url := "";
                             PullsCreateResponse.number := 1 |}) |}.

Definition host : Host unit :=
  {| app_activeWindow := fun _ => Some (mkWindow 1);
     Date_toISOString := fun _ => "2019-08-01T12:00:00.000Z" |}.
End Terse.

(** The scenario of the specification: alice publishes two files on
    [feature-x] of alice/demo and asks for a pull request against [main]. *)
Definition scenario : PullRequestWithChangesetCommit.t :=
  {| PullRequestWithChangesetCommit.pullRequest :=
       {| GitHubPullRequest.sourceOwner := "alice";
          GitHubPullRequest.sourceRepo := "demo";
          GitHubPullRequest.destinationBranch := "main";
          GitHubPullRequest.sourceBranch := "feature-x";
          GitHubPullRequest.subject := "Add greeting";
          GitHubPullRequest.description := "Says hello.";
          GitHubPullRequest.destinationOwner := None;
          GitHubPullRequest.destinationRepo := None;
          GitHubPullRequest.maintainerCanModify := Some true;
          GitHubPullRequest.draft := Some false |};
     PullRequestWithChangesetCommit.changesetCommit :=
       {| ChangesetCommit.sourceFiles :=
            [ {| SourceFile.path := "hello.txt";
                 SourceFile.content := "hello" |};
              {| SourceFile.path := "src/index.ts";
                 SourceFile.content := "export {}" |} ];
          ChangesetCommit.commitMetaData :=
            {| CommitMetaData.authorName := "Alice";
               CommitMetaData.authorEmail := "alice@example.com";
               CommitMetaData.commitMessage := "Add greeting" |} |} |}.


(** The same changes proposed from alice's fork to upstream/demo. *)
Definition cross_fork : PullRequestWithChangesetCommit.t :=
  {| PullRequestWithChangesetCommit.pullRequest :=
       {| GitHubPullRequest.sourceOwner := "alice";
          GitHubPullRequest.sourceRepo := "demo";
          GitHubPullRequest.destinationBranch := "main";
          GitHubPullRequest.sourceBranch := "feature-x";
          GitHubPullRequest.subject := "Add greeting";
          GitHubPullRequest.description := "Says hello.";
          GitHubPullRequest.destinationOwner := Some "upstream";
          GitHubPullRequest.destinationRepo := None;
          GitHubPullRequest.maintainerCanModify := Some true;
          GitHubPullRequest.draft := Some false |};
     PullRequestWithChangesetCommit.changesetCommit :=
       PullRequestWithChangesetCommit.changesetCommit scenario |}.

(** The client of the scenarios. *)
Definition alice : Client := Client_new Hub.connect "token".

(** [unset] is the program's own test [!x] on an optional string: the field
    is absent or holds the empty string. *)
Definition unset (x : option string) : bool :=
  match x with
  | None => true
  | Some s => String.eqb s ""
  end.

(** ** More ways to read a transcript *)

(** The repository a git request addresses. *)
Definition git_target (r : Request) : option (string * string) :=
  match r with
  | GitGetRef p => Some (GitGetRefParams.owner p, GitGetRefParams.repo p)
  | GitCreateRef p =>
      Some (GitCreateRefParams.owner p, GitCreateRefParams.repo p)
  | GitCreateTree p =>
      Some (GitCreateTreeParams.owner p, GitCreateTreeParams.repo p)
  | GitGetCommit p =>
      Some (GitGetCommitParams.owner p, GitGetCommitParams.repo p)
  | GitCreateCommit p =>
      Some (GitCreateCommitParams.owner p, GitCreateCommitParams.repo p)
  | GitUpdateRef p =>
      Some (GitUpdateRefParams.owner p, GitUpdateRefParams.repo p)
  | PullsCreate _ => None
  end.

(** The event is not a git request on another repository than
    [owner]/[repo]. *)
Definition stays_in (owner repo : string) (ev : Event) : bool :=
  match ev with
  | Called r _ =>
      match git_target r with
      | Some (o, n) => String.eqb o owner && String.eqb n repo
      | None => true
      end
  | Notified _ _ _ => true
  end.

Definition is_called (ev : Event) : bool := negb (is_notified ev).

Definition is_getRef (ev : Event) : bool :=
  match ev with
  | Called (GitGetRef _) _ => true
  | _ => false
  end.

Definition is_createTree (ev : Event) : bool :=
  match ev with
  | Called (GitCreateTree _) _ => true
  | _ => false
  end.

Definition is_getCommit (ev : Event) : bool :=
  match ev with
  | Called (GitGetCommit _) _ => true
  | _ => false
  end.

Definition is_createCommit (ev : Event) : bool :=
  match ev with
  | Called (GitCreateCommit _) _ => true
  | _ => false
  end.

Definition is_pullsCreate (ev : Event) : bool :=
  match ev with
  | Called (PullsCreate _) _ => true
  | _ => false
  end.

Definition count (f : Event -> bool) (evs : list Event) : nat :=
  length (filter f evs).

(** The rejections the program may go on after: a 404 on a ref lookup
    (the test of [getCommitBranchSha]) and a 422 on the creation of the
    pull request (the test of [createPullRequest]). *)
Definition tolerated (r : Request) (e : JsError) : bool :=
  match r with
  | GitGetRef _ => strict_eq_num (get_prop e "status") 404
  | PullsCreate _ =>
      truthy (get_prop e "status") && strict_eq_num (get_prop e "status") 422
  | _ => false
  end.

(** The requests of the branch, tree and commit stages other than a ref
    lookup. *)
Definition is_git_write (r : Request) : bool :=
  match r with
  | GitGetRef _ => false
  | PullsCreate _ => false
  | _ => true
  end.

(** What the caller of [issuePullRequestWithToken] reads in the message
    when the error caught was made by [new Error]. *)
Definition opaque_failure : JsError :=
  new_Error ("Unhandled error in GH response" ++ nl ++ "{}").

(** ** More worlds for the scenarios *)

(** alice/demo without any branch. *)
Definition bare : Hub.state :=
  {| Hub.refs := [];
     Hub.commits := [];
     Hub.pulls := [];
     Hub.fresh := 0;
     Hub.window := Some (mkWindow 1);
     Hub.pending_push := None;
     Hub.locked := false |}.

(** [feature-x] points at a commit the service does not have. *)
Definition dangling : Hub.state :=
  {| Hub.refs := [("heads/main", "S"); ("heads/feature-x", "Z")];
     Hub.commits := [("S", [])];
     Hub.pulls := [];
     Hub.fresh := 0;
     Hub.window := Some (mkWindow 1);
     Hub.pending_push := None;
     Hub.locked := false |}.

(** [Hub.published] with no window open. *)
Definition published_headless : Hub.state :=
  {| Hub.refs := [("heads/main", "S"); ("heads/feature-x", "F")];
     Hub.commits := [("F", ["S"]); ("S", [])];
     Hub.pulls := [("feature-x", "main")];
     Hub.fresh := 0;
     Hub.window := None;
     Hub.pending_push := None;
     Hub.locked := false |}.

(** A host with no window open, for the remote whose pull-request body
    has an empty [html_url]. *)
Definition blind : Host unit :=
  {| app_activeWindow := fun _ => None;
     Date_toISOString := fun _ => "2019-08-01T12:00:00.000Z" |}.

(** A remote that rejects every request: the token is not accepted. *)
Module Denied.
Definition bad_credentials : JsError :=
  {| message := "Bad credentials";
     props := [("name", JStr "HttpError"); ("status", JNum 401)] |}.

Definition connect (options : OctokitOptions) : Octokit unit :=
  {| git_getRef := fun _ w => (w, inl bad_credentials);
     git_createRef := fun _ w => (w, inl bad_credentials);
     git_createTree := fun _ w => (w, inl bad_credentials);
     git_getCommit := fun _ w => (w, inl bad_credentials);
     git_createCommit := fun _ w => (w, inl bad_credentials);
     git_updateRef := fun _ w => (w, inl bad_credentials);
     pulls_create := fun _ w => (w, inl bad_credentials) |}.

Definition host : Host unit :=
  {| app_activeWindow := fun _ => Some (mkWindow 1);
     Date_toISOString := fun _ => "2019-08-01T12:00:00.000Z" |}.
End Denied.

(** ** Facts about the JavaScript values *)

Lemma strict_eq_num_true v n :
  strict_eq_num v n = true <-> v = Some (JNum n).
Proof.
  split.
  - destruct v as [[| | z | | |]|]; simpl; try discriminate.
    intros H. apply Z.eqb_eq in H. now subst.
  - intros ->. simpl. apply Z.eqb_refl.
Qed.

Lemma status_422_test e :
  get_prop e "status" = Some (JNum 422) ->
  truthy (get_prop e "status") && strict_eq_num (get_prop e "status") 422 = true.
Proof. intros ->. reflexivity. Qed.

Lemma status_other_test e :
  strict_eq_num (get_prop e "status") 422 = false ->
  truthy (get_prop e "status") && strict_eq_num (get_prop e "status") 422 = false.
Proof. intros ->. apply andb_false_r. Qed.

Lemma JSON_stringify_new_Error msg : JSON_stringify (new_Error msg) = "{}".
Proof. reflexivity. Qed.

(** A transcript fails [url_disclosed] exactly when a creation in it
    resolved with an empty [html_url]. *)
Lemma url_disclosed_false evs :
  url_disclosed evs = false <->
  exists p d,
    In (Called (PullsCreate p) (inr (PullData d))) evs
    /\ PullsCreateResponse.html_url d = "".
Proof.
  unfold url_disclosed. split.
  - induction evs as [| ev evs IH]; cbn [forallb]; [discriminate |].
    intros H. apply andb_false_iff in H. destruct H as [H | H].
    + destruct ev as [[| | | | | | p] [e | [| | d]] |]; try discriminate H.
      apply negb_false_iff, String.eqb_eq in H.
      exists p, d. split; [left; reflexivity | exact H].
    + destruct (IH H) as (p & d & Hin & Hurl).
      exists p, d. split; [right; exact Hin | exact Hurl].
  - intros (p & d & Hin & Hurl).
    induction evs as [| ev evs IH]; [destruct Hin |].
    cbn [forallb]. apply andb_false_iff. destruct Hin as [-> | Hin].
    + left. rewrite Hurl. reflexivity.
    + right. exact (IH Hin).
Qed.

(** ** Proof steps shared by the path analyses *)

(** One step along a run: settle the next request either way, decide the
    next test, or read the active window. *)
Ltac settle :=
  match goal with
  | |- context [match ?m ?p ?w with pair _ _ => _ end] =>
      destruct (m p w) as [? [?|?]] eqn:?
  | |- context [if ?b then _ else _] => destruct b eqn:?
  | |- context [match app_activeWindow ?h ?w with _ => _ end] =>
      destruct (app_activeWindow h w) eqn:?
  end.

Ltac unfold_program :=
  cbv [issuePullRequestWithToken issuePullRequest createPullRequest pushCommit
       createTree getCommitBranchSha createCommitBranch
       bind try_catch await ret throw read showNotification].

Ltac paths :=
  unfold_program;
  repeat (settle; cbn [world events outcome app fst snd]).

(** Split an assumption that an event occurs in an explicit transcript. *)
Ltac occurs :=
  repeat match goal with
         | H : In _ (_ :: _) |- _ => destruct H as [H | H]
         | H : In _ [] |- _ => destruct H
         | H : Called _ _ = Called _ _ |- _ => inversion H; clear H; subst
         | H : Notified _ _ _ = Notified _ _ _ |- _ =>
             inversion H; clear H; subst
         | H : Called _ _ = Notified _ _ _ |- _ => discriminate H
         | H : Notified _ _ _ = Called _ _ |- _ => discriminate H
         end.

Ltac same_window :=
  repeat match goal with
         | H : Some _ = Some _ |- _ => inversion H; clear H; subst
         end.

(** The two reads of the active window of one run see the same world. *)
Ltac absurd_window :=
  match goal with
  | H : None = Some _ |- _ => discriminate H
  | H : Some _ = None |- _ => discriminate H
  end.

Section Properties.
Context {W : Type}.
Variable Octokit_new : OctokitOptions -> Octokit W.
Variable host : Host W.

(** *** Branch resolver *)

(** C3. When the lookup of the target branch succeeds,
    [getCommitBranchSha] issues that one request and nothing else (no
    branch is created) and returns the tip sha of the answer unchanged. *)
Theorem getCommitBranchSha_existing_branch
    (this : Client) (owner repo baseBranch commitBranch : string)
    (w w' : W) (data : GitRefResponse.t) :
  let lookup := {| GitGetRefParams.owner := owner;
                   GitGetRefParams.repo := repo;
                   GitGetRefParams.ref := "heads/" ++ commitBranch |} in
  git_getRef (octokit this) lookup w = (w', inr data) ->
  getCommitBranchSha this owner repo baseBranch commitBranch w
  = mkRun w' [Called (GitGetRef lookup) (inr (RefData data))]
      (inr {| ShaResponse.sha :=
                GitObject.sha (GitRefResponse.object data) |})
  /\ filter is_createRef
       (events (getCommitBranchSha this owner repo baseBranch
                  commitBranch w)) = [].
Proof.
  intros lookup H. subst lookup.
  unfold getCommitBranchSha, try_catch, bind, await, ret.
  rewrite H. split; reflexivity.
Qed.

(** C4. When the lookup of the target branch is rejected with status 404
    and the base branch is found with tip [S], [getCommitBranchSha] asks
    for [refs/heads/<target>] to be created at [S]; once the remote has
    created it (its answer reports the new ref at [S]) the call returns
    [S]. *)
Theorem getCommitBranchSha_creates_branch
    (this : Client) (owner repo baseBranch commitBranch S : string)
    (w w1 w2 w3 : W) (e : JsError) (baseRef created : GitRefResponse.t) :
  let lookup := {| GitGetRefParams.owner := owner;
                   GitGetRefParams.repo := repo;
                   GitGetRefParams.ref := "heads/" ++ commitBranch |} in
  let base := {| GitGetRefParams.owner := owner;
                 GitGetRefParams.repo := repo;
                 GitGetRefParams.ref := "heads/" ++ baseBranch |} in
  let creation := {| GitCreateRefParams.owner := owner;
                     GitCreateRefParams.repo := repo;
                     GitCreateRefParams.ref := "refs/heads/" ++ commitBranch;
                     GitCreateRefParams.sha := S |} in
  git_getRef (octokit this) lookup w = (w1, inl e) ->
  get_prop e "status" = Some (JNum 404) ->
  git_getRef (octokit this) base w1 = (w2, inr baseRef) ->
  GitObject.sha (GitRefResponse.object baseRef) = S ->
  git_createRef (octokit this) creation w2 = (w3, inr created) ->
  GitObject.sha (GitRefResponse.object created) = S ->
  getCommitBranchSha this owner repo baseBranch commitBranch w
  = mkRun w3
      [Called (GitGetRef lookup) (inl e);
       Called (GitGetRef base) (inr (RefData baseRef));
       Called (GitCreateRef creation) (inr (RefData created))]
      (inr {| ShaResponse.sha := S |}).
Proof.
  intros lookup base creation Hlookup Hstatus Hbase Htip Hcreate Hcreated.
  subst lookup base creation.
  unfold getCommitBranchSha, createCommitBranch, try_catch, bind, await, ret.
  rewrite Hlookup, Hstatus. cbn [strict_eq_num]. rewrite Z.eqb_refl.
  rewrite Hbase, Htip, Hcreate, Hcreated. reflexivity.
Qed.

(** *** Tree builder *)


(** *** Commit publisher *)


(** *** Pull request issuer *)

(** C5. The request [createPullRequest] issues is built from the
    pull request as follows.  When the destination owner is unset or is
    the source owner, the owner is the source owner and the base is the
    destination branch as it is; when it is set and differs, it is kept
    as the owner and the base becomes [sourceOwner:destinationBranch].
    When the destination repository is unset the repository is the source
    repository.  It is the only pull-request request of a publish call. *)
Theorem createPullRequest_destination_defaulting
    (this : Client) (arg : PullRequestWithChangesetCommit.t) (w : W) :
  let pr := PullRequestWithChangesetCommit.pullRequest arg in
  let p := pullsCreateParams pr in
  (exists settled rest,
      events (createPullRequest host this pr w)
      = Called (PullsCreate p) settled :: rest)
  /\ (forall q settled,
        In (Called (PullsCreate q) settled)
           (events (issuePullRequest host this arg w)) -> q = p)
  /\ PullsCreateParams.head p = GitHubPullRequest.sourceBranch pr
  /\ (unset (GitHubPullRequest.destinationOwner pr) = true
       \/ GitHubPullRequest.destinationOwner pr
          = Some (GitHubPullRequest.sourceOwner pr) ->
       PullsCreateParams.owner p = GitHubPullRequest.sourceOwner pr
       /\ PullsCreateParams.base p = GitHubPullRequest.destinationBranch pr)
  /\ (unset (GitHubPullRequest.destinationOwner pr) = false ->
       GitHubPullRequest.destinationOwner pr
       <> Some (GitHubPullRequest.sourceOwner pr) ->
       GitHubPullRequest.destinationOwner pr
       = Some (PullsCreateParams.owner p)
       /\ PullsCreateParams.base p
          = GitHubPullRequest.sourceOwner pr ++ ":"
            ++ GitHubPullRequest.destinationBranch pr)
  /\ (unset (GitHubPullRequest.destinationRepo pr) = true ->
       PullsCreateParams.repo p = GitHubPullRequest.sourceRepo pr)
  /\ (unset (GitHubPullRequest.destinationRepo pr) = false ->
       GitHubPullRequest.destinationRepo pr
       = Some (PullsCreateParams.repo p)).
Proof.
  intros pr p. subst p. split; [| split].
  - unfold createPullRequest, try_catch, bind, await, ret.
    destruct (pulls_create _ _ _) as [w' [e | d]].
    + destruct (_ && _).
      * cbv [bind read showNotification throw ret].
        destruct (app_activeWindow host w'); eexists; eexists; reflexivity.
      * eexists; eexists; reflexivity.
    + eexists; eexists; reflexivity.
  - intros q settled. subst pr. paths; intros Hin; occurs; reflexivity.
  - unfold pullsCreateParams.
    destruct (GitHubPullRequest.destinationOwner pr) as [o |];
      destruct (GitHubPullRequest.destinationRepo pr) as [r |];
      cbn [unset].
    all: try destruct (String.eqb_spec o "");
      try destruct (String.eqb_spec o (GitHubPullRequest.sourceOwner pr));
      try destruct (String.eqb_spec r "");
      cbn [negb andb PullsCreateParams.head PullsCreateParams.owner
           PullsCreateParams.base PullsCreateParams.repo];
      repeat split; intros; subst;
      try reflexivity; try discriminate; try congruence.
    all: try (match goal with H : _ \/ _ |- _ => destruct H end);
      try discriminate; try congruence.
Qed.

(** C1. In a publish call whose pull-request creation is rejected with
    status 422 while a window is active, [issuePullRequest] returns no
    pull request (nothing with a URL), the one notification shown is the
    already-exists message, shown as a warning and not as an error, and
    [issuePullRequestWithToken] returns without throwing and without
    showing anything more. *)
Theorem issuePullRequest_already_exists
    (arg : PullRequestWithChangesetCommit.t) (token : string) (w : W)
    (p : PullsCreateParams.t) (e : JsError) (win : Window) :
  let inner := issuePullRequest host (Client_new Octokit_new token) arg w in
  let outer := issuePullRequestWithToken Octokit_new host arg token w in
  In (Called (PullsCreate p) (inl e)) (events inner) ->
  get_prop e "status" = Some (JNum 422) ->
  app_activeWindow host (world inner) = Some win ->
  outcome inner = inr None
  /\ notifications (events inner)
     = [Notified win already_exists_message NotificationType.Warning]
  /\ outer = mkRun (world inner) (events inner) (inr tt).
Proof.
  cbv zeta. paths; intros Hin Hstatus Hwin; occurs.
  all: try (apply status_422_test in Hstatus; congruence).
  all: cbn [world] in Hwin; try congruence.
  all: same_window; repeat split; reflexivity.
Qed.

(** C8. In a run of [issuePullRequest] whose pull-request creation is
    rejected with an error whose status is not 422, the call throws a new
    error whose message is ["Error: "] followed by the JSON text of the
    rejection; the rejected request is the last thing the run did and
    nothing was shown. *)
Theorem issuePullRequest_failed
    (this : Client) (arg : PullRequestWithChangesetCommit.t) (w : W)
    (p : PullsCreateParams.t) (e : JsError) :
  let inner := issuePullRequest host this arg w in
  In (Called (PullsCreate p) (inl e)) (events inner) ->
  strict_eq_num (get_prop e "status") 422 = false ->
  outcome inner = inl (new_Error ("Error: " ++ JSON_stringify e))
  /\ notifications (events inner) = []
  /\ exists before,
       events inner = (before ++ [Called (PullsCreate p) (inl e)])%list.
Proof.
  cbv zeta. paths; intros Hin Hstatus; occurs.
  all: try (apply status_other_test in Hstatus; congruence).
  all: repeat split; try reflexivity.
  all: match goal with
       | |- exists before, ?l = _ => exists (removelast l); reflexivity
       end.
Qed.

(** *** The publish call *)

(** C6. Every ref update of a publish call is sent with [force] set to
    false.  When the remote rejects it, the publish call throws (the
    rejection wrapped by the outer handler), the rejected update is the
    last thing the run did and its only ref update (no retry, no pull
    request), and no notification was shown. *)
Theorem pushCommit_non_force_update
    (arg : PullRequestWithChangesetCommit.t) (token : string) (w : W) :
  let run := issuePullRequestWithToken Octokit_new host arg token w in
  (forall p settled,
      In (Called (GitUpdateRef p) settled) (events run) ->
      GitUpdateRefParams.force p = Some false)
  /\ (forall p e,
        In (Called (GitUpdateRef p) (inl e)) (events run) ->
        outcome run
        = inl (new_Error ("Unhandled error in GH response" ++ nl
                          ++ JSON_stringify e))
        /\ notifications (events run) = []
        /\ exists before,
             events run = (before ++ [Called (GitUpdateRef p) (inl e)])%list
             /\ filter is_updateRef before = []).
Proof.
  cbv zeta. split; intros p s; paths; intros Hin; occurs.
  all: try reflexivity.
  all: repeat split; try reflexivity.
  all: match goal with
       | |- exists before, ?l = _ /\ _ =>
           exists (removelast l); split; reflexivity
       end.
Qed.

(** C7, as amended.  A publish call produces exactly one of the three
    outcomes (one success notification, or one already-exists
    notification, or a thrown error) on every run but those where the
    creation of the pull request resolved with an empty [html_url] and a
    window is active: on these the call returns normally and has shown
    nothing, which is none of the three.  A success notification carries
    the [html_url] of the created pull request. *)
Theorem publish_one_outcome
    (arg : PullRequestWithChangesetCommit.t) (token : string) (w : W) :
  let run := issuePullRequestWithToken Octokit_new host arg token w in
  (url_disclosed (events run) = true
   \/ app_activeWindow host (world run) = None ->
   outcomes run = 1)
  /\ (forall p d win,
        In (Called (PullsCreate p) (inr (PullData d))) (events run) ->
        PullsCreateResponse.html_url d = "" ->
        app_activeWindow host (world run) = Some win ->
        outcomes run = 0
        /\ outcome run = inr tt
        /\ notifications (events run) = [])
  /\ (forall win msg,
        In (Notified win msg NotificationType.Success) (events run) ->
        exists p d,
          In (Called (PullsCreate p) (inr (PullData d))) (events run)
          /\ msg = pr_created_message (PullsCreateResponse.html_url d))
  /\ (forall win msg,
        In (Notified win msg NotificationType.Warning) (events run) ->
        msg = already_exists_message).
Proof.
  cbv zeta. split; [| split; [| split]].
  - paths.
    all: try absurd_window.
    all: cbn [url_disclosed forallb andb world];
      try match goal with
          | H : negb _ = false |- _ => rewrite H
          end;
      cbn [andb]; intros [Hurl | Hwin]; try discriminate Hurl;
      try congruence; reflexivity.
  - intros p d win. paths.
    all: try absurd_window.
    all: cbn [world]; intros Hin Hurl Hwin; occurs; try congruence.
    all: try (rewrite Hurl in *; cbn in *; discriminate).
    all: repeat split; reflexivity.
  - paths; intros win msg Hin; occurs.
    all: do 2 eexists; split; [| reflexivity]; cbn [In]; tauto.
  - paths; intros win msg Hin; occurs; reflexivity.
Qed.

(** C10. Whenever [issuePullRequestWithToken] throws, what it throws is a
    new error with no property of its own besides the message, and the
    message is ["Unhandled error in GH response"], a line break and the
    JSON text of the error caught: the one [issuePullRequest] threw, or
    the no-active-window error raised after it returned. *)
Theorem issuePullRequestWithToken_wraps_errors
    (arg : PullRequestWithChangesetCommit.t) (token : string) (w : W)
    (err : JsError) :
  let inner := issuePullRequest host (Client_new Octokit_new token) arg w in
  let outer := issuePullRequestWithToken Octokit_new host arg token w in
  outcome outer = inl err ->
  exists caught,
    err = new_Error ("Unhandled error in GH response" ++ nl
                     ++ JSON_stringify caught)
    /\ props err = []
    /\ (outcome inner = inl caught
        \/ (exists result,
               outcome inner = inr result
               /\ app_activeWindow host (world inner) = None
               /\ caught = new_Error no_active_window)).
Proof.
  cbv zeta. unfold issuePullRequestWithToken, try_catch, bind, read, throw.
  destruct (issuePullRequest _ _ _ _) as [w1 evs [e | result]];
    cbn [world events outcome].
  - intros H. inversion H; subst. exists e. auto.
  - destruct (app_activeWindow host w1) as [win |] eqn:Hwin;
      cbn [world events outcome].
    + destruct result as [r |]; [destruct (negb _) |];
        cbv [showNotification ret]; discriminate.
    + intros H. inversion H; subst. exists (new_Error no_active_window).
      split; [reflexivity | split; [reflexivity | right]].
      exists result. auto.
Qed.
End Properties.

(** ** The scenarios of the specification, run on the in-memory service *)

Ltac occurs_in := vm_compute; repeat (first [left; reflexivity | right]).

(** The target branch is absent and [main] is at [S]: the branch is
    created at [S], the commit has [S] as its parent, the pull request is
    opened against [main] with no owner prefix and its URL is shown. *)
Example publish_on_fresh_branch :
  issuePullRequestWithToken Hub.connect Hub.host scenario "token" Hub.start
  = mkRun
      {| Hub.refs := [("heads/main", "S"); ("heads/feature-x", "commit-1")];
         Hub.commits := [("commit-1", ["S"]); ("S", [])];
         Hub.pulls := [("feature-x", "main")];
         Hub.fresh := 2;
         Hub.window := Some (mkWindow 1);
         Hub.pending_push := None;
         Hub.locked := false |}
      (events (issuePullRequest Hub.host alice scenario Hub.start)
       ++ [Notified (mkWindow 1)
             (pr_created_message "https://github.com/alice/demo/pull/1")
             NotificationType.Success])%list
      (inr tt).
Proof. reflexivity. Qed.

Example stringify_plain_error :
  JSON_stringify (new_Error no_active_window) = "{}".
Proof. reflexivity. Qed.

Example stringify_http_error :
  JSON_stringify (Hub.http_error 404 "Not Found")
  = "{" ++ quote "name" ++ ":" ++ quote "HttpError" ++ ","
    ++ quote "status" ++ ":404}".
Proof. reflexivity. Qed.

Lemma getCommitBranchSha_existing_branch_witness :
  getCommitBranchSha alice "alice" "demo" "main" "feature-x" Hub.published
  = mkRun Hub.published
      [Called
         (GitGetRef {| GitGetRefParams.owner := "alice";
                       GitGetRefParams.repo := "demo";
                       GitGetRefParams.ref := "heads/feature-x" |})
         (inr (RefData
                 {| GitRefResponse.ref := "refs/heads/feature-x";
                    GitRefResponse.object := {| GitObject.sha := "F" |} |}))]
      (inr {| ShaResponse.sha := "F" |})
  /\ filter is_createRef
       (events (getCommitBranchSha alice "alice" "demo" "main" "feature-x"
                  Hub.published)) = [].
Proof.
  apply (getCommitBranchSha_existing_branch alice "alice" "demo" "main"
           "feature-x" Hub.published Hub.published
           {| GitRefResponse.ref := "refs/heads/feature-x";
              GitRefResponse.object := {| GitObject.sha := "F" |} |}).
  reflexivity.
Defined.

Lemma getCommitBranchSha_creates_branch_witness :
  outcome (getCommitBranchSha alice "alice" "demo" "main" "feature-x" Hub.start)
  = inr {| ShaResponse.sha := "S" |}.
Proof.
  rewrite (getCommitBranchSha_creates_branch alice "alice" "demo" "main"
             "feature-x" "S" Hub.start Hub.start Hub.start
             {| Hub.refs := [("heads/main", "S"); ("heads/feature-x", "S")];
                Hub.commits := [("S", [])];
                Hub.pulls := [];
                Hub.fresh := 0;
                Hub.window := Some (mkWindow 1);
                Hub.pending_push := None;
                Hub.locked := false |}
             (Hub.http_error 404 "Not Found")
             {| GitRefResponse.ref := "refs/heads/main";
                GitRefResponse.object := {| GitObject.sha := "S" |} |}
             {| GitRefResponse.ref := "refs/heads/feature-x";
                GitRefResponse.object := {| GitObject.sha := "S" |} |});
    reflexivity.
Defined.


Lemma createPullRequest_destination_defaulting_witness :
  PullsCreateParams.owner
    (pullsCreateParams (PullRequestWithChangesetCommit.pullRequest scenario))
  = "alice"
  /\ PullsCreateParams.base
       (pullsCreateParams (PullRequestWithChangesetCommit.pullRequest scenario))
     = "main"
  /\ PullsCreateParams.repo
       (pullsCreateParams (PullRequestWithChangesetCommit.pullRequest scenario))
     = "demo"
  /\ PullsCreateParams.base
       (pullsCreateParams (PullRequestWithChangesetCommit.pullRequest cross_fork))
     = "alice:main".
Proof.
  pose proof (createPullRequest_destination_defaulting Hub.host alice
                scenario Hub.start) as Hsame.
  pose proof (createPullRequest_destination_defaulting Hub.host alice
                cross_fork Hub.start) as Hfork.
  cbv zeta in Hsame, Hfork.
  destruct Hsame as (_ & _ & _ & Hsame & _ & Hrepo & _).
  destruct Hfork as (_ & _ & _ & _ & Hfork & _).
  destruct (Hsame (or_introl eq_refl)) as [Howner Hbase].
  destruct (Hfork eq_refl ltac:(discriminate)) as [_ Hqualified].
  exact (conj Howner (conj Hbase (conj (Hrepo eq_refl) Hqualified))).
Defined.

Lemma issuePullRequest_already_exists_witness :
  outcome (issuePullRequest Hub.host alice scenario Hub.published) = inr None
  /\ notifications
       (events (issuePullRequest Hub.host alice scenario Hub.published))
     = [Notified (mkWindow 1) already_exists_message NotificationType.Warning]
  /\ issuePullRequestWithToken Hub.connect Hub.host scenario "token"
       Hub.published
     = mkRun (world (issuePullRequest Hub.host alice scenario Hub.published))
         (events (issuePullRequest Hub.host alice scenario Hub.published))
         (inr tt).
Proof.
  apply (issuePullRequest_already_exists Hub.connect Hub.host scenario "token"
           Hub.published
           (pullsCreateParams
              (PullRequestWithChangesetCommit.pullRequest scenario))
           (Hub.http_error 422 "Validation Failed") (mkWindow 1));
    [occurs_in | reflexivity | reflexivity].
Defined.

Lemma issuePullRequest_failed_witness :
  outcome (issuePullRequest Hub.host alice scenario Hub.restricted)
  = inl (new_Error
           ("Error: "
            ++ JSON_stringify
                 (Hub.http_error 403 "Resource not accessible by integration"))).
Proof.
  apply (issuePullRequest_failed Hub.host alice scenario Hub.restricted
           (pullsCreateParams
              (PullRequestWithChangesetCommit.pullRequest scenario))
           (Hub.http_error 403 "Resource not accessible by integration"));
    [occurs_in | reflexivity].
Defined.

Lemma pushCommit_non_force_update_witness :
  outcome (issuePullRequestWithToken Hub.connect Hub.host scenario "token"
             Hub.raced)
  = inl (new_Error
           ("Unhandled error in GH response" ++ nl
            ++ JSON_stringify
                 (Hub.http_error 422 "Update is not a fast forward")))
  /\ notifications
       (events (issuePullRequestWithToken Hub.connect Hub.host scenario
                  "token" Hub.raced)) = [].
Proof.
  destruct (proj2 (pushCommit_non_force_update Hub.connect Hub.host scenario
                     "token" Hub.raced)
              {| GitUpdateRefParams.owner := "alice";
                 GitUpdateRefParams.repo := "demo";
                 GitUpdateRefParams.ref := "heads/feature-x";
                 GitUpdateRefParams.sha := "commit-1";
                 GitUpdateRefParams.force := Some false |}
              (Hub.http_error 422 "Update is not a fast forward")
              ltac:(occurs_in)) as (Hthrown & Hquiet & _).
  split; [exact Hthrown | exact Hquiet].
Defined.

Lemma publish_one_outcome_witness :
  outcomes (issuePullRequestWithToken Hub.connect Hub.host scenario "token"
              Hub.start) = 1
  /\ outcomes (issuePullRequestWithToken Terse.connect blind scenario "token"
                 tt) = 1.
Proof.
  split.
  - apply (proj1 (publish_one_outcome Hub.connect Hub.host scenario "token"
                    Hub.start)).
    left. reflexivity.
  - apply (proj1 (publish_one_outcome Terse.connect blind scenario "token"
                    tt)).
    right. reflexivity.
Defined.

(** C7, as the specification states it, fails: a remote may resolve the
    creation with a body whose [html_url] is empty; the publish call then
    returns normally and has shown nothing, which is none of the three
    outcomes. *)
Lemma publish_no_outcome :
  outcomes (issuePullRequestWithToken Terse.connect Terse.host scenario
              "token" tt) = 0
  /\ outcome (issuePullRequestWithToken Terse.connect Terse.host scenario
                "token" tt) = inr tt
  /\ notifications
       (events (issuePullRequestWithToken Terse.connect Terse.host scenario
                  "token" tt)) = [].
Proof. repeat split; reflexivity. Qed.

Lemma issuePullRequestWithToken_wraps_errors_witness :
  exists caught,
    new_Error ("Unhandled error in GH response" ++ nl ++ "{}")
    = new_Error ("Unhandled error in GH response" ++ nl
                 ++ JSON_stringify caught)
    /\ props (new_Error ("Unhandled error in GH response" ++ nl ++ "{}")) = []
    /\ (outcome (issuePullRequest Hub.host alice scenario Hub.headless)
        = inl caught
        \/ (exists result,
               outcome (issuePullRequest Hub.host alice scenario Hub.headless)
               = inr result
               /\ app_activeWindow Hub.host
                    (world (issuePullRequest Hub.host alice scenario
                              Hub.headless)) = None
               /\ caught = new_Error no_active_window)).
Proof.
  apply (issuePullRequestWithToken_wraps_errors Hub.connect Hub.host scenario
           "token" Hub.headless
           (new_Error ("Unhandled error in GH response" ++ nl ++ "{}"))).
  reflexivity.
Defined.

(** ** Further properties of the pipeline *)

Ltac last_event :=
  match goal with
  | |- exists before, ?l = _ => exists (removelast l); reflexivity
  end.

Lemma pullsCreateParams_head pr :
  PullsCreateParams.head (pullsCreateParams pr)
  = GitHubPullRequest.sourceBranch pr.
Proof.
  unfold pullsCreateParams.
  destruct (GitHubPullRequest.destinationOwner pr) as [o |];
    [destruct (_ && _) |]; reflexivity.
Qed.

Section Pipeline.
Context {W : Type}.
Variable Octokit_new : OctokitOptions -> Octokit W.
Variable host : Host W.

(** X1. How [getCommitBranchSha] fails.  Either the lookup of the target
    branch was rejected with a status other than 404, that lookup is the
    whole run and the error is the fixed lookup-failed message; or the
    lookup was rejected with 404 and the error thrown is, unchanged, the
    rejection of the last request made while creating the branch: the
    lookup of the base branch, or the creation itself. *)
Theorem getCommitBranchSha_failure
    (this : Client) (owner repo baseBranch commitBranch : string) (w : W)
    (err : JsError) :
  let lookup := {| GitGetRefParams.owner := owner;
                   GitGetRefParams.repo := repo;
                   GitGetRefParams.ref := "heads/" ++ commitBranch |} in
  let base := {| GitGetRefParams.owner := owner;
                 GitGetRefParams.repo := repo;
                 GitGetRefParams.ref := "heads/" ++ baseBranch |} in
  let run := getCommitBranchSha this owner repo baseBranch commitBranch w in
  outcome run = inl err ->
  exists e,
    (events run = [Called (GitGetRef lookup) (inl e)]
     /\ strict_eq_num (get_prop e "status") 404 = false
     /\ err = new_Error lookup_failed_message)
    \/ (events run
        = [Called (GitGetRef lookup) (inl e);
           Called (GitGetRef base) (inl err)]
        /\ get_prop e "status" = Some (JNum 404))
    \/ (exists baseRef,
          events run
          = [Called (GitGetRef lookup) (inl e);
             Called (GitGetRef base) (inr (RefData baseRef));
             Called
               (GitCreateRef
                  {| GitCreateRefParams.owner := owner;
                     GitCreateRefParams.repo := repo;
                     GitCreateRefParams.ref := "refs/heads/" ++ commitBranch;
                     GitCreateRefParams.sha :=
                       GitObject.sha (GitRefResponse.object baseRef) |})
               (inl err)]
          /\ get_prop e "status" = Some (JNum 404)).
Proof.
  cbv zeta. unfold_program.
  repeat (settle; cbn [world events outcome app fst snd]);
    intros Herr; try discriminate Herr; inversion Herr; subst; exists j.
  - right. left. split; [reflexivity | now apply strict_eq_num_true].
  - right. right. eexists. split; [reflexivity | now apply strict_eq_num_true].
  - left. repeat split. assumption.
Qed.

(** X2. A publish call asks for a branch to be created only as its third
    request, after the lookup of the source branch was rejected with 404
    and the lookup of the destination branch name in the source repository
    resolved; the branch asked for is [refs/heads/<sourceBranch>] in the
    source repository, at the tip that second lookup reported. *)
Theorem createRef_only_after_not_found
    (arg : PullRequestWithChangesetCommit.t) (token : string) (w : W)
    (p : GitCreateRefParams.t) (settled : JsError + Data) :
  let pr := PullRequestWithChangesetCommit.pullRequest arg in
  let run := issuePullRequestWithToken Octokit_new host arg token w in
  In (Called (GitCreateRef p) settled) (events run) ->
  exists e baseRef rest,
    events run
    = Called (GitGetRef
                {| GitGetRefParams.owner := GitHubPullRequest.sourceOwner pr;
                   GitGetRefParams.repo := GitHubPullRequest.sourceRepo pr;
                   GitGetRefParams.ref :=
                     "heads/" ++ GitHubPullRequest.sourceBranch pr |})
        (inl e)
      :: Called (GitGetRef
                   {| GitGetRefParams.owner := GitHubPullRequest.sourceOwner pr;
                      GitGetRefParams.repo := GitHubPullRequest.sourceRepo pr;
                      GitGetRefParams.ref :=
                        "heads/" ++ GitHubPullRequest.destinationBranch pr |})
           (inr (RefData baseRef))
      :: Called (GitCreateRef p) settled :: rest
    /\ get_prop e "status" = Some (JNum 404)
    /\ p = {| GitCreateRefParams.owner := GitHubPullRequest.sourceOwner pr;
              GitCreateRefParams.repo := GitHubPullRequest.sourceRepo pr;
              GitCreateRefParams.ref :=
                "refs/heads/" ++ GitHubPullRequest.sourceBranch pr;
              GitCreateRefParams.sha :=
                GitObject.sha (GitRefResponse.object baseRef) |}.
Proof.
  cbv zeta. paths; intros Hin; occurs.
  all: do 3 eexists; split; [reflexivity |]; split;
    [now apply strict_eq_num_true | reflexivity].
Qed.

(** X3. The pull request is asked for only after the push went through,
    and the requests before it are chained: the tree is layered on the sha
    the branch stage returned, the commit re-read is that same sha, the
    commit is made of the tree just created with the re-read commit as its
    one parent, and the branch moved (without force) to the commit just
    created is the source branch, the head of the pull request. *)
Theorem pull_request_follows_push
    (this : Client) (arg : PullRequestWithChangesetCommit.t) (w : W)
    (p : PullsCreateParams.t) (settled : JsError + Data) :
  let pr := PullRequestWithChangesetCommit.pullRequest arg in
  let cs := PullRequestWithChangesetCommit.changesetCommit arg in
  let owner := GitHubPullRequest.sourceOwner pr in
  let repo := GitHubPullRequest.sourceRepo pr in
  let branchRun :=
    getCommitBranchSha this owner repo
      (GitHubPullRequest.destinationBranch pr)
      (GitHubPullRequest.sourceBranch pr) w in
  In (Called (PullsCreate p) settled)
     (events (issuePullRequest host this arg w)) ->
  exists branch treeData parentCommit createdCommit ref date rest,
    outcome branchRun = inr branch
    /\ PullsCreateParams.head p = GitHubPullRequest.sourceBranch pr
    /\ events (issuePullRequest host this arg w)
       = (events branchRun
          ++ [Called
                (GitCreateTree
                   {| GitCreateTreeParams.owner := owner;
                      GitCreateTreeParams.repo := repo;
                      GitCreateTreeParams.tree :=
                        map (fun f =>
                               {| GitCreateTreeParamsTree.path :=
                                    SourceFile.path f;
                                  GitCreateTreeParamsTree.content :=
                                    SourceFile.content f;
                                  GitCreateTreeParamsTree.type :=
                                    TreeEntryType.blob;
                                  GitCreateTreeParamsTree.mode :=
                                    TreeEntryMode.m100644 |})
                            (ChangesetCommit.sourceFiles cs);
                      GitCreateTreeParams.base_tree :=
                        Some (ShaResponse.sha branch) |})
                (inr (ShaData treeData));
              Called
                (GitGetCommit
                   {| GitGetCommitParams.owner := owner;
                      GitGetCommitParams.repo := repo;
                      GitGetCommitParams.commit_sha :=
                        ShaResponse.sha branch |})
                (inr (ShaData parentCommit));
              Called
                (GitCreateCommit
                   {| GitCreateCommitParams.owner := owner;
                      GitCreateCommitParams.repo := repo;
                      GitCreateCommitParams.message :=
                        CommitMetaData.commitMessage
                          (ChangesetCommit.commitMetaData cs);
                      GitCreateCommitParams.tree := ShaResponse.sha treeData;
                      GitCreateCommitParams.author :=
                        {| CommitAuthor.name :=
                             CommitMetaData.authorName
                               (ChangesetCommit.commitMetaData cs);
                           CommitAuthor.email :=
                             CommitMetaData.authorEmail
                               (ChangesetCommit.commitMetaData cs);
                           CommitAuthor.date := date |};
                      GitCreateCommitParams.parents :=
                        [ShaResponse.sha parentCommit] |})
                (inr (ShaData createdCommit));
              Called
                (GitUpdateRef
                   {| GitUpdateRefParams.owner := owner;
                      GitUpdateRefParams.repo := repo;
                      GitUpdateRefParams.ref :=
                        "heads/" ++ GitHubPullRequest.sourceBranch pr;
                      GitUpdateRefParams.sha := ShaResponse.sha createdCommit;
                      GitUpdateRefParams.force := Some false |})
                (inr (RefData ref));
              Called (PullsCreate p) settled]
          ++ rest)%list.
Proof.
  cbv zeta. paths; intros Hin; occurs.
  all: do 7 eexists; split; [reflexivity |];
    split; [apply pullsCreateParams_head |];
    cbn [app ShaResponse.sha]; reflexivity.
Qed.

(** X4. Fail fast.  In a publish call, a rejected request other than a
    ref lookup rejected with 404 and a pull-request creation rejected with
    422 ends the run: it is the last event, the call throws and nothing is
    shown. *)
Theorem rejection_ends_the_run
    (arg : PullRequestWithChangesetCommit.t) (token : string) (w : W)
    (r : Request) (e : JsError) :
  let run := issuePullRequestWithToken Octokit_new host arg token w in
  In (Called r (inl e)) (events run) ->
  tolerated r e = false ->
  threw run = true
  /\ notifications (events run) = []
  /\ exists before, events run = (before ++ [Called r (inl e)])%list.
Proof.
  cbv zeta. paths; intros Hin Htol; occurs; cbn [tolerated] in Htol;
    try congruence.
  all: split; [reflexivity | split; [reflexivity | last_event]].
Qed.

(** X5. What the caller learns from a rejected branch, tree or commit
    request (any request but a ref lookup and the pull-request creation):
    the rejection reaches the outer handler as it is, so the message the
    caller gets carries the JSON text of the remote's error. *)
Theorem git_rejection_reaches_caller
    (arg : PullRequestWithChangesetCommit.t) (token : string) (w : W)
    (r : Request) (e : JsError) :
  let run := issuePullRequestWithToken Octokit_new host arg token w in
  In (Called r (inl e)) (events run) ->
  is_git_write r = true ->
  outcome run
  = inl (new_Error ("Unhandled error in GH response" ++ nl
                    ++ JSON_stringify e)).
Proof.
  cbv zeta. paths; intros Hin Hwrite; occurs; cbn [is_git_write] in Hwrite;
    try discriminate Hwrite; reflexivity.
Qed.

(** X6. When the creation of the pull request is rejected with a status
    other than 422, the payload that [createPullRequest] puts in the
    message of its error does not reach the caller of
    [issuePullRequestWithToken]: the outer handler serialises an error
    that has no enumerable property, and the message the caller gets ends
    in the text of an empty object, whatever the rejection was. *)
Theorem pull_request_failure_is_opaque
    (arg : PullRequestWithChangesetCommit.t) (token : string) (w : W)
    (p : PullsCreateParams.t) (e : JsError) :
  let run := issuePullRequestWithToken Octokit_new host arg token w in
  In (Called (PullsCreate p) (inl e)) (events run) ->
  strict_eq_num (get_prop e "status") 422 = false ->
  outcome run = inl opaque_failure.
Proof.
  cbv zeta. paths; intros Hin Hstatus; occurs.
  all: try (apply status_other_test in Hstatus; congruence).
  all: reflexivity.
Qed.

(** X7. When the first lookup of the source branch is rejected with a
    status other than 404, the publish call makes no other request, shows
    nothing, and throws the same opaque error: neither the remote's error
    nor the lookup-failed message is in what the caller gets. *)
Theorem lookup_failure_is_opaque
    (arg : PullRequestWithChangesetCommit.t) (token : string) (w w' : W)
    (e : JsError) :
  let pr := PullRequestWithChangesetCommit.pullRequest arg in
  let lookup :=
    {| GitGetRefParams.owner := GitHubPullRequest.sourceOwner pr;
       GitGetRefParams.repo := GitHubPullRequest.sourceRepo pr;
       GitGetRefParams.ref := "heads/" ++ GitHubPullRequest.sourceBranch pr |} in
  git_getRef (octokit (Client_new Octokit_new token)) lookup w = (w', inl e) ->
  strict_eq_num (get_prop e "status") 404 = false ->
  issuePullRequestWithToken Octokit_new host arg token w
  = mkRun w' [Called (GitGetRef lookup) (inl e)] (inl opaque_failure).
Proof.
  cbv zeta. intros Hlookup Hstatus. unfold_program.
  rewrite Hlookup, Hstatus. reflexivity.
Qed.

(** X8. When no window is active once the pull request has been created,
    or found to exist already (rejection with 422), the publish call shows
    nothing and throws the opaque error, although the branch has been
    moved and the pull request is there. *)
Theorem no_window_after_pull_request
    (arg : PullRequestWithChangesetCommit.t) (token : string) (w : W)
    (p : PullsCreateParams.t) (settled : JsError + Data) :
  let run := issuePullRequestWithToken Octokit_new host arg token w in
  In (Called (PullsCreate p) settled) (events run) ->
  match settled with
  | inl e => get_prop e "status" = Some (JNum 422)
  | inr _ => True
  end ->
  app_activeWindow host (world run) = None ->
  outcome run = inl opaque_failure
  /\ notifications (events run) = []
  /\ exists before,
       events run = (before ++ [Called (PullsCreate p) settled])%list.
Proof.
  cbv zeta. paths; intros Hin Hsettled Hwin; occurs;
    cbn [world] in Hwin; try congruence.
  all: try (apply status_422_test in Hsettled; congruence).
  all: split; [reflexivity | split; [reflexivity | last_event]].
Qed.

(** X9. When the creation of the pull request resolves with a non-empty
    [html_url] and a window is active, [issuePullRequest] returns the
    remote's answer as it is and shows nothing itself, and
    [issuePullRequestWithToken] adds one notification, of type success, on
    that window, whose text ends with the [html_url], and returns. *)
Theorem pull_request_created_is_announced
    (arg : PullRequestWithChangesetCommit.t) (token : string) (w : W)
    (p : PullsCreateParams.t) (d : PullsCreateResponse.t) (win : Window) :
  let inner := issuePullRequest host (Client_new Octokit_new token) arg w in
  let run := issuePullRequestWithToken Octokit_new host arg token w in
  In (Called (PullsCreate p) (inr (PullData d))) (events inner) ->
  String.eqb (PullsCreateResponse.html_url d) "" = false ->
  app_activeWindow host (world inner) = Some win ->
  outcome inner = inr (Some d)
  /\ notifications (events inner) = []
  /\ run
     = mkRun (world inner)
         (events inner
          ++ [Notified win
                (pr_created_message (PullsCreateResponse.html_url d))
                NotificationType.Success])%list
         (inr tt).
Proof.
  cbv zeta. paths; intros Hin Hurl Hwin; occurs;
    cbn [world] in Hwin; try congruence.
  all: try (rewrite Hurl in *; discriminate).
  all: same_window; repeat split; reflexivity.
Qed.

(** X10. Every git request of [issuePullRequest] (ref lookups, branch
    creation, tree, commit re-read, commit, ref update) addresses the
    source repository, also when the pull request is for another owner or
    repository: only the pull-request creation goes to the destination. *)
Theorem git_requests_stay_in_source
    (this : Client) (arg : PullRequestWithChangesetCommit.t) (w : W) :
  let pr := PullRequestWithChangesetCommit.pullRequest arg in
  forallb (stays_in (GitHubPullRequest.sourceOwner pr)
                    (GitHubPullRequest.sourceRepo pr))
          (events (issuePullRequest host this arg w)) = true.
Proof.
  cbv zeta. paths.
  all: cbn [forallb stays_in git_target GitGetRefParams.owner
            GitGetRefParams.repo GitCreateRefParams.owner
            GitCreateRefParams.repo GitCreateTreeParams.owner
            GitCreateTreeParams.repo GitGetCommitParams.owner
            GitGetCommitParams.repo GitCreateCommitParams.owner
            GitCreateCommitParams.repo GitUpdateRefParams.owner
            GitUpdateRefParams.repo];
    rewrite !String.eqb_refl; reflexivity.
Qed.

(** X11. A publish call shows at most one notification; when it shows
    one, that is the last thing it does (no request follows), and its type
    is success or warning, never error, info or log. *)
Theorem at_most_one_notification
    (arg : PullRequestWithChangesetCommit.t) (token : string) (w : W) :
  let run := issuePullRequestWithToken Octokit_new host arg token w in
  count is_notified (events run) <= 1
  /\ forallb is_called (removelast (events run)) = true
  /\ count (is_notification NotificationType.Error) (events run) = 0
  /\ count (is_notification NotificationType.Info) (events run) = 0
  /\ count (is_notification NotificationType.Log) (events run) = 0.
Proof.
  cbv zeta. paths.
  all: cbv [count]; cbn [filter is_notified is_notification length];
    split; [auto | repeat split; reflexivity].
Qed.

(** X12. Nothing is retried: a publish call makes at most two ref lookups
    and at most one request of each other kind, so at most eight requests
    in all. *)
Theorem no_request_is_repeated
    (arg : PullRequestWithChangesetCommit.t) (token : string) (w : W) :
  let run := issuePullRequestWithToken Octokit_new host arg token w in
  count is_getRef (events run) <= 2
  /\ count is_createRef (events run) <= 1
  /\ count is_createTree (events run) <= 1
  /\ count is_getCommit (events run) <= 1
  /\ count is_createCommit (events run) <= 1
  /\ count is_updateRef (events run) <= 1
  /\ count is_pullsCreate (events run) <= 1
  /\ count is_called (events run) <= 8.
Proof.
  cbv zeta. paths.
  all: cbv [count is_called];
    cbn [filter is_getRef is_createRef is_createTree is_getCommit
         is_createCommit is_updateRef is_pullsCreate is_notified negb length];
    repeat split; auto 10.
Qed.
End Pipeline.

(** ** The further properties on the in-memory service *)

Local Abbreviation feature_lookup :=
  (GitGetRef {| GitGetRefParams.owner := "alice";
                GitGetRefParams.repo := "demo";
                GitGetRefParams.ref := "heads/feature-x" |}).

Local Abbreviation main_lookup :=
  (GitGetRef {| GitGetRefParams.owner := "alice";
                GitGetRefParams.repo := "demo";
                GitGetRefParams.ref := "heads/main" |}).

Local Abbreviation feature_creation sha :=
  (GitCreateRef {| GitCreateRefParams.owner := "alice";
                   GitCreateRefParams.repo := "demo";
                   GitCreateRefParams.ref := "refs/heads/feature-x";
                   GitCreateRefParams.sha := sha |}).

Local Abbreviation scenario_pull :=
  (pullsCreateParams (PullRequestWithChangesetCommit.pullRequest scenario)).

Local Abbreviation not_found := (Hub.http_error 404 "Not Found").

(** In a repository without branches the 404 of the base lookup is what
    the branch stage throws. *)
Lemma getCommitBranchSha_failure_witness :
  exists e,
    (events (getCommitBranchSha alice "alice" "demo" "main" "feature-x" bare)
     = [Called feature_lookup (inl e)]
     /\ strict_eq_num (get_prop e "status") 404 = false
     /\ not_found = new_Error lookup_failed_message)
    \/ (events (getCommitBranchSha alice "alice" "demo" "main" "feature-x"
                  bare)
        = [Called feature_lookup (inl e); Called main_lookup (inl not_found)]
        /\ get_prop e "status" = Some (JNum 404))
    \/ (exists baseRef,
          events (getCommitBranchSha alice "alice" "demo" "main" "feature-x"
                    bare)
          = [Called feature_lookup (inl e);
             Called main_lookup (inr (RefData baseRef));
             Called
               (feature_creation
                  (GitObject.sha (GitRefResponse.object baseRef)))
               (inl not_found)]
          /\ get_prop e "status" = Some (JNum 404)).
Proof.
  apply (getCommitBranchSha_failure alice "alice" "demo" "main" "feature-x"
           bare not_found).
  reflexivity.
Defined.

Lemma createRef_only_after_not_found_witness :
  In (Called (feature_creation "S")
        (inr (RefData
                {| GitRefResponse.ref := "refs/heads/feature-x";
                   GitRefResponse.object := {| GitObject.sha := "S" |} |})))
     (events (issuePullRequestWithToken Hub.connect Hub.host scenario "token"
                Hub.start))
  /\ exists e,
       get_prop e "status" = Some (JNum 404)
       /\ hd_error
            (events (issuePullRequestWithToken Hub.connect Hub.host scenario
                       "token" Hub.start))
          = Some (Called feature_lookup (inl e)).
Proof.
  assert (Hin :
    In (Called (feature_creation "S")
          (inr (RefData
                  {| GitRefResponse.ref := "refs/heads/feature-x";
                     GitRefResponse.object := {| GitObject.sha := "S" |} |})))
       (events (issuePullRequestWithToken Hub.connect Hub.host scenario
                  "token" Hub.start))) by occurs_in.
  split; [exact Hin |].
  destruct (createRef_only_after_not_found Hub.connect Hub.host scenario
              "token" Hub.start _ _ Hin)
    as (e & baseRef & rest & Hevents & Hstatus & _).
  exists e. split; [exact Hstatus |]. rewrite Hevents. reflexivity.
Defined.

Lemma pull_request_follows_push_witness :
  In (Called (PullsCreate scenario_pull)
        (inl (Hub.http_error 422 "Validation Failed")))
     (events (issuePullRequest Hub.host alice scenario Hub.published))
  /\ exists branch,
       outcome (getCommitBranchSha alice "alice" "demo" "main" "feature-x"
                  Hub.published) = inr branch
       /\ PullsCreateParams.head scenario_pull = "feature-x".
Proof.
  assert (Hin :
    In (Called (PullsCreate scenario_pull)
          (inl (Hub.http_error 422 "Validation Failed")))
       (events (issuePullRequest Hub.host alice scenario Hub.published)))
    by occurs_in.
  split; [exact Hin |].
  destruct (pull_request_follows_push Hub.host alice scenario Hub.published
              _ _ Hin)
    as (branch & _ & _ & _ & _ & _ & _ & Hbranch & Hhead & _).
  exists branch. split; [exact Hbranch | exact Hhead].
Defined.

(** The tip of [feature-x] is unknown to the service: the re-read of the
    commit is rejected, and that ends the run. *)
Lemma rejection_ends_the_run_witness :
  threw (issuePullRequestWithToken Hub.connect Hub.host scenario "token"
           dangling) = true
  /\ notifications
       (events (issuePullRequestWithToken Hub.connect Hub.host scenario
                  "token" dangling)) = []
  /\ exists before,
       events (issuePullRequestWithToken Hub.connect Hub.host scenario
                 "token" dangling)
       = (before
          ++ [Called
                (GitGetCommit {| GitGetCommitParams.owner := "alice";
                                 GitGetCommitParams.repo := "demo";
                                 GitGetCommitParams.commit_sha := "Z" |})
                (inl not_found)])%list.
Proof.
  apply (rejection_ends_the_run Hub.connect Hub.host scenario "token"
           dangling
           (GitGetCommit {| GitGetCommitParams.owner := "alice";
                            GitGetCommitParams.repo := "demo";
                            GitGetCommitParams.commit_sha := "Z" |})
           not_found); [occurs_in | reflexivity].
Defined.

Lemma git_rejection_reaches_caller_witness :
  outcome (issuePullRequestWithToken Hub.connect Hub.host scenario "token"
             dangling)
  = inl (new_Error ("Unhandled error in GH response" ++ nl
                    ++ JSON_stringify not_found)).
Proof.
  apply (git_rejection_reaches_caller Hub.connect Hub.host scenario "token"
           dangling
           (GitGetCommit {| GitGetCommitParams.owner := "alice";
                            GitGetCommitParams.repo := "demo";
                            GitGetCommitParams.commit_sha := "Z" |})
           not_found); [occurs_in | reflexivity].
Defined.

(** The service refuses to open the pull request with 403: the caller's
    message does not show it. *)
Lemma pull_request_failure_is_opaque_witness :
  outcome (issuePullRequestWithToken Hub.connect Hub.host scenario "token"
             Hub.restricted) = inl opaque_failure.
Proof.
  apply (pull_request_failure_is_opaque Hub.connect Hub.host scenario "token"
           Hub.restricted scenario_pull
           (Hub.http_error 403 "Resource not accessible by integration"));
    [occurs_in | reflexivity].
Defined.

Lemma lookup_failure_is_opaque_witness :
  issuePullRequestWithToken Denied.connect Denied.host scenario "token" tt
  = mkRun tt [Called feature_lookup (inl Denied.bad_credentials)]
      (inl opaque_failure).
Proof.
  apply (lookup_failure_is_opaque Denied.connect Denied.host scenario "token"
           tt tt Denied.bad_credentials); reflexivity.
Defined.

Lemma no_window_after_pull_request_witness :
  outcome (issuePullRequestWithToken Hub.connect Hub.host scenario "token"
             published_headless) = inl opaque_failure
  /\ notifications
       (events (issuePullRequestWithToken Hub.connect Hub.host scenario
                  "token" published_headless)) = []
  /\ exists before,
       events (issuePullRequestWithToken Hub.connect Hub.host scenario
                 "token" published_headless)
       = (before
          ++ [Called (PullsCreate scenario_pull)
                (inl (Hub.http_error 422 "Validation Failed"))])%list.
Proof.
  apply (no_window_after_pull_request Hub.connect Hub.host scenario "token"
           published_headless scenario_pull
           (inl (Hub.http_error 422 "Validation Failed")));
    [occurs_in | reflexivity | reflexivity].
Defined.

Lemma pull_request_created_is_announced_witness :
  outcome (issuePullRequest Hub.host alice scenario Hub.start)
  = inr (Some {| PullsCreateResponse.html_url :=
                   "https://github.com/alice/demo/pull/1";
                 PullsCreateResponse.number := 1 |})
  /\ notifications (events (issuePullRequest Hub.host alice scenario Hub.start))
     = []
  /\ issuePullRequestWithToken Hub.connect Hub.host scenario "token" Hub.start
     = mkRun (world (issuePullRequest Hub.host alice scenario Hub.start))
         (events (issuePullRequest Hub.host alice scenario Hub.start)
          ++ [Notified (mkWindow 1)
                (pr_created_message "https://github.com/alice/demo/pull/1")
                NotificationType.Success])%list
         (inr tt).
Proof.
  apply (pull_request_created_is_announced Hub.connect Hub.host scenario
           "token" Hub.start scenario_pull
           {| PullsCreateResponse.html_url :=
                "https://github.com/alice/demo/pull/1";
              PullsCreateResponse.number := 1 |}
           (mkWindow 1)); [occurs_in | reflexivity | reflexivity].
Defined.
